(** * msl.equipment: the message-based connection base class

    A shallow embedding of [ConnectionMessageBased]
    (msl/equipment/connection_message_based.py) together with the
    properties of its configuration setters and of [query].

    Python semantics are those of Python 3: [bool] is a subclass of [int],
    [float] is IEEE-754 binary64, and an attribute assigned before a
    [raise] stays assigned. *)

From Stdlib Require Import ZArith QArith Qpower String Ascii List Bool Lia.
From Stdlib Require Import Floats.SpecFloat.
Import ListNotations.

Local Open Scope string_scope.
Local Open Scope Z_scope.

(** ** Python values *)

(** Binary64 floating-point numbers, as the inductive specification of the
    Standard Library. *)
Definition float := spec_float.

Definition prec : Z := 53.
Definition emax : Z := 1024.

(** The values the methods of the class are called with. *)
Inductive pyval : Type :=
| PyNone
| PyBool (b : bool)
| PyInt (n : Z)
| PyFloat (f : float)
| PyStr (s : string).

(** The exception classes that occur; messages are not modelled. *)
Inductive exn : Type :=
| ValueError
| TypeError
| OverflowError
| LookupError
| UnicodeError
| NotImplementedError
| MSLTimeoutError
| OtherError (name : string).

Inductive outcome (A : Type) : Type :=
| Ok (a : A)
| Raise (e : exn).
Arguments Ok {A} a.
Arguments Raise {A} e.

(** ** Computations on a mutable object

    A method is a function from the state before the call to its outcome
    and the state after it.  A raised exception keeps the state reached at
    the [raise], as attribute assignments are not rolled back. *)
Definition M (S A : Type) : Type := S -> outcome A * S.

Definition ret {S A} (a : A) : M S A := fun s => (Ok a, s).

Definition bind {S A B} (c : M S A) (k : A -> M S B) : M S B :=
  fun s =>
    match c s with
    | (Ok a, s') => k a s'
    | (Raise e, s') => (Raise e, s')
    end.

Definition raise {S A} (e : exn) : M S A := fun s => (Raise e, s).

Definition get {S} : M S S := fun s => (Ok s, s).

Definition modify {S} (f : S -> S) : M S unit := fun s => (Ok tt, f s).

(** An expression that reads no state and may raise. *)
Definition lift {S A} (o : outcome A) : M S A := fun s => (o, s).

Declare Scope py_scope.
Delimit Scope py_scope with py.
Notation "x <- c ;; k" := (bind c (fun x => k))
  (at level 100, c at next level, right associativity) : py_scope.
Notation "c ;; k" := (bind c (fun _ => k))
  (at level 100, right associativity) : py_scope.
Local Open Scope py_scope.

(** ** Numbers *)

Definition float_zero : float := S754_zero false.

(** [float(n)] for an [int]: rounded to nearest, ties to even;
    Python raises [OverflowError] where the rounding overflows. *)
Definition float_of_int (n : Z) : outcome float :=
  match binary_normalize prec emax n 0 false with
  | S754_infinity _ => Raise OverflowError
  | f => Ok f
  end.

Definition float_one : float :=
  Eval vm_compute in binary_normalize prec emax 1 0 false.

Section Float.
(** [float(s)] for a [str]: the parser of the interpreter, [None] where
    it raises [ValueError]. *)
Variable float_of_str : string -> option float.

(** The builtin [float(value)]. *)
Definition py_float (value : pyval) : outcome float :=
  match value with
  | PyNone => Raise TypeError
  | PyBool b => Ok (if b then float_one else float_zero)
  | PyInt n => float_of_int n
  | PyFloat f => Ok f
  | PyStr s =>
      match float_of_str s with
      | Some f => Ok f
      | None => Raise ValueError
      end
  end.
End Float.

(** [isinstance(v, int)]: [bool] is a subclass of [int]. *)
Definition isinstance_int (v : pyval) : bool :=
  match v with
  | PyBool _ | PyInt _ => true
  | _ => false
  end.

(** [int(v)] for an instance of [int]; other values never reach it. *)
Definition py_int (v : pyval) : Z :=
  match v with
  | PyBool b => Z.b2z b
  | PyInt n => n
  | _ => 0
  end.

(** [delay > 0.0]: numbers compare by value, anything else raises
    [TypeError]. *)
Definition py_gt_zero (v : pyval) : outcome bool :=
  match v with
  | PyBool b => Ok b
  | PyInt n => Ok (0 <? n)
  | PyFloat f => Ok (SFltb float_zero f)
  | PyNone | PyStr _ => Raise TypeError
  end.

(** ** The object *)

Definition CR : string := String "013"%char EmptyString.
Definition LF : string := String "010"%char EmptyString.

Record ConnectionMessageBased : Type := {
  _read_termination : option string;
  _write_termination : option string;
  _encoding : string;
  _max_read_size : Z;
  _timeout : option float
}.

(** [__init__], after [Connection.__init__(self, record)]. *)
Definition __init__ : ConnectionMessageBased := {|
  _read_termination := Some LF;
  _write_termination := Some (CR ++ LF);
  _encoding := "utf-8";
  _max_read_size := 2 ^ 16;
  _timeout := None
|}.

(** Attribute assignments. *)
Definition set_read_termination (v : option string) (self : ConnectionMessageBased) :=
  {| _read_termination := v;
     _write_termination := _write_termination self;
     _encoding := _encoding self;
     _max_read_size := _max_read_size self;
     _timeout := _timeout self |}.

Definition set_write_termination (v : option string) (self : ConnectionMessageBased) :=
  {| _read_termination := _read_termination self;
     _write_termination := v;
     _encoding := _encoding self;
     _max_read_size := _max_read_size self;
     _timeout := _timeout self |}.

Definition set_encoding (v : string) (self : ConnectionMessageBased) :=
  {| _read_termination := _read_termination self;
     _write_termination := _write_termination self;
     _encoding := v;
     _max_read_size := _max_read_size self;
     _timeout := _timeout self |}.

Definition set_max_read_size (v : Z) (self : ConnectionMessageBased) :=
  {| _read_termination := _read_termination self;
     _write_termination := _write_termination self;
     _encoding := _encoding self;
     _max_read_size := v;
     _timeout := _timeout self |}.

Definition set_timeout (v : option float) (self : ConnectionMessageBased) :=
  {| _read_termination := _read_termination self;
     _write_termination := _write_termination self;
     _encoding := _encoding self;
     _max_read_size := _max_read_size self;
     _timeout := v |}.

(** The property getters. *)
Definition encoding := _encoding.
Definition read_termination := _read_termination.
Definition write_termination := _write_termination.
Definition max_read_size := _max_read_size.
Definition timeout := _timeout.

(** ** The setters *)

(** [read_termination.setter] and [write_termination.setter], called with
    [None] or a [str] (on which [str(termination)] is the identity). *)
Definition read_termination_setter (termination : option string)
  : M ConnectionMessageBased unit :=
  modify (set_read_termination termination).

Definition write_termination_setter (termination : option string)
  : M ConnectionMessageBased unit :=
  modify (set_write_termination termination).

(** [max_read_size.setter]. The right operand of [or] is evaluated only on
    an instance of [int]. *)
Definition max_read_size_setter (size : pyval) : M ConnectionMessageBased unit :=
  if negb (isinstance_int size) || (py_int size <? 1)
  then raise ValueError
  else modify (set_max_read_size (py_int size)).

Section Timeout.
Variable float_of_str : string -> option float.

(** [_set_timeout_value]. After the assignment [self._timeout] is the
    float [t], which the two comparisons read. *)
Definition _set_timeout_value (value : pyval) : M ConnectionMessageBased unit :=
  match value with
  | PyNone => ret tt
  | _ =>
      t <- lift (py_float float_of_str value) ;;
      modify (set_timeout (Some t)) ;;
      if SFeqb t float_zero then modify (set_timeout None)
      else if SFltb t float_zero then raise ValueError
      else ret tt
  end.
End Timeout.

Section Codec.
(** The codec registry of the interpreter: [text.encode(name)] and
    [data.decode(name)]. *)
Variable str_encode : string -> string -> outcome (list Byte.byte).
Variable bytes_decode : list Byte.byte -> string -> outcome string.

(** ['test encoding'.encode(encoding).decode(encoding)] *)
Definition round_trip (encoding : string) : outcome string :=
  match str_encode "test encoding" encoding with
  | Ok data => bytes_decode data encoding
  | Raise e => Raise e
  end.

(** [encoding.setter] *)
Definition encoding_setter (encoding : string) : M ConnectionMessageBased unit :=
  _ <- lift (round_trip encoding) ;;
  modify (set_encoding encoding).

(** The codec [name] encodes and decodes the probe string. *)
Definition round_trips (name : string) : Prop :=
  exists text, round_trip name = Ok text.

Variable float_of_str : string -> option float.

(** The operations that assign the attributes of an object during its
    life; an exception raised by one of them is handled by the caller
    and the object lives on in the state reached. *)
Inductive assignment : Type :=
| SetEncoding (name : string)
| SetMaxReadSize (size : pyval)
| SetTimeout (value : pyval)
| SetReadTermination (termination : option string)
| SetWriteTermination (termination : option string).

Definition assign (a : assignment) : M ConnectionMessageBased unit :=
  match a with
  | SetEncoding name => encoding_setter name
  | SetMaxReadSize size => max_read_size_setter size
  | SetTimeout value => _set_timeout_value float_of_str value
  | SetReadTermination t => read_termination_setter t
  | SetWriteTermination t => write_termination_setter t
  end.

Fixpoint lifetime (l : list assignment) (self : ConnectionMessageBased)
  : ConnectionMessageBased :=
  match l with
  | [] => self
  | a :: l' => lifetime l' (snd (assign a self))
  end.
End Codec.

(** ** read, write and query *)

(** [read] and [write] are to be overridden by the subclass; [Dev] is the
    state they work on: the object, its transport and the equipment. *)
Class MessageBased (Dev : Type) : Type := {
  read_body : pyval -> M Dev string;
  write_body : string -> M Dev Z
}.

(** The base class itself. *)
#[local] Instance base : MessageBased unit := {|
  read_body := fun _ => raise NotImplementedError;
  write_body := fun _ => raise NotImplementedError
|}.

(** The calls made on the object and on [time], in the order made. *)
Inductive call : Type :=
| CallWrite (message : string)
| CallSleep (delay : pyval)
| CallRead (size : pyval).

Record world (Dev : Type) : Type := {
  device : Dev;
  calls : list call
}.
Arguments device {Dev} w.
Arguments calls {Dev} w.
Arguments Build_world {Dev} device calls.

Section Query.
Context {Dev : Type} `{MessageBased Dev}.

(** [time.sleep] *)
Variable time_sleep : pyval -> M Dev unit.

Definition record_call (c : call) : M (world Dev) unit :=
  modify (fun w => {| device := device w; calls := calls w ++ [c] |}).

Definition on_device {A} (c : M Dev A) : M (world Dev) A :=
  fun w =>
    let (o, d) := c (device w) in
    (o, {| device := d; calls := calls w |}).

Definition write (message : string) : M (world Dev) Z :=
  record_call (CallWrite message) ;; on_device (write_body message).

Definition read (size : pyval) : M (world Dev) string :=
  record_call (CallRead size) ;; on_device (read_body size).

Definition sleep (delay : pyval) : M (world Dev) unit :=
  record_call (CallSleep delay) ;; on_device (time_sleep delay).

(** [query] *)
Definition query (message : string) (delay : pyval) (size : pyval)
  : M (world Dev) string :=
  _ <- write message ;;
  positive_delay <- lift (py_gt_zero delay) ;;
  (if positive_delay : bool then sleep delay else ret tt) ;;
  read size.

(** [self.write(message)] followed at once by [self.read(size)]. *)
Definition write_then_read (message : string) (size : pyval)
  : M (world Dev) string :=
  _ <- write message ;;
  read size.
End Query.

(** The length of a delay in seconds, as a rational. *)
Definition Q_of_float (f : float) : Q :=
  match f with
  | S754_finite s m e =>
      ((if s then inject_Z (Zneg m) else inject_Z (Zpos m)) * Qpower (2 # 1) e)%Q
  | _ => 0%Q
  end.

Definition seconds (delay : pyval) : Q :=
  match delay with
  | PyBool b => inject_Z (Z.b2z b)
  | PyInt n => inject_Z n
  | PyFloat f => Q_of_float f
  | _ => 0%Q
  end.

(** A float that is not zero and carries the sign [s]. *)
Definition signed (s : bool) (f : float) : Prop :=
  match f with
  | S754_finite s' _ _ | S754_infinity s' => s' = s
  | _ => False
  end.

(** The statements of [query] between [self.write] and [self.read]. *)
Definition pause {Dev : Type} (time_sleep : pyval -> M Dev unit)
  (delay : pyval) : M (world Dev) unit :=
  positive_delay <- lift (py_gt_zero delay) ;;
  if positive_delay : bool then sleep time_sleep delay else ret tt.

(** ** Sample values and collaborators, for concrete runs *)

Definition float_minus_one : float :=
  Eval vm_compute in binary_normalize prec emax (-1) 0 false.

Definition float_five : float :=
  Eval vm_compute in binary_normalize prec emax 5 0 false.

(** 0.5 *)
Definition float_half : float := S754_finite false 4503599627370496 (-53).

(** A parser of [float(s)] that knows the spelling of one number. *)
Definition sample_float_of_str (s : string) : option float :=
  if String.eqb s "5" then Some float_five else None.

(** A registry of two codecs that agree on ASCII text. *)
Definition sample_known (name : string) : bool :=
  String.eqb name "utf-8" || String.eqb name "ascii".

Definition sample_encode (text name : string) : outcome (list Byte.byte) :=
  if sample_known name then Ok (list_byte_of_string text) else Raise LookupError.

Definition sample_decode (data : list Byte.byte) (name : string) : outcome string :=
  if sample_known name then Ok (string_of_list_byte data) else Raise LookupError.

(** An instrument that answers every message at once; its state is the
    wall clock, in seconds. *)
#[local] Instance sample_instrument : MessageBased Q := {|
  read_body := fun _ => ret "MODEL-42";
  write_body := fun message => ret (Z.of_nat (String.length message))
|}.

(** A [time.sleep] that returns exactly when the delay has elapsed. *)
Definition sample_sleep (delay : pyval) : M Q unit :=
  modify (fun clock => (clock + seconds delay)%Q).

(** An instrument whose [write] times out. *)
#[local] Instance silent_instrument : MessageBased Q := {|
  read_body := fun _ => raise MSLTimeoutError;
  write_body := fun _ => raise MSLTimeoutError
|}.

(** An instrument that takes a message and never answers. *)
#[local] Instance mute_instrument : MessageBased Q := {|
  read_body := fun _ => raise MSLTimeoutError;
  write_body := fun message => ret (Z.of_nat (String.length message))
|}.

(** The start of a session: the clock at zero, no call made yet. *)
Definition sample_world : world Q := {| device := 0%Q; calls := [] |}.

Definition sample_message : string := "*IDN?".

(** ** KCubeStepperMotor

    The methods of resources/thorlabs/kinesis/kcube_stepper_motor.py that
    decide something themselves. The functions of the SDK are those of the
    vendor's library; [Sdk] is the state of the controller behind them. *)

(** The character that pads a buffer of [create_string_buffer]. *)
Definition NUL : ascii := "000"%char.

(** [text.rstrip('\x00')] *)
Fixpoint rstrip_nul (text : string) : string :=
  match text with
  | EmptyString => EmptyString
  | String c text' =>
      match rstrip_nul text' with
      | EmptyString => if Ascii.eqb c NUL then EmptyString else String c EmptyString
      | kept => String c kept
      end
  end.

(** [k] characters of padding. *)
Fixpoint padding (k : nat) : string :=
  match k with
  | O => EmptyString
  | S k' => String NUL (padding k')
  end.

(** The last character of a text, if it has one. *)
Fixpoint last_char (text : string) : option ascii :=
  match text with
  | EmptyString => None
  | String c EmptyString => Some c
  | String _ text' => last_char text'
  end.

(** [Enum(value)]: the member with that value, [ValueError] if there is
    none. [member] tells the values of the enumeration. *)
Definition enum_call (member : Z -> bool) (value : Z) : outcome Z :=
  if member value then Ok value else Raise ValueError.

(** [try: mode = Enum(value)] [except ValueError: mode = Enum(value | 0x0080)] *)
Definition enum_or_swapped (member : Z -> bool) (value : Z) : outcome Z :=
  match enum_call member value with
  | Ok mode => Ok mode
  | Raise ValueError => enum_call member (Z.lor value 128)
  | Raise e => Raise e
  end.

Section KCubeStepperMotor.
Context {Sdk : Type}.

(** [self.sdk.SCC_SetPowerParams(self._serial, byref(params))], given the
    two fields of [params]. *)
Variable SCC_SetPowerParams : Z -> Z -> M Sdk unit.

(** [self.sdk.SCC_GetLimitSwitchParams], returning what it stores through
    its five references. *)
Variable SCC_GetLimitSwitchParams : M Sdk (Z * Z * Z * Z * Z).

(** The values of [enums.MOT_LimitSwitchModes] and of
    [enums.MOT_LimitSwitchSWModes]. *)
Variable MOT_LimitSwitchModes : Z -> bool.
Variable MOT_LimitSwitchSWModes : Z -> bool.

(** [set_power_params], called with integers. *)
Definition set_power_params (rest move : Z) : M Sdk unit :=
  (if (rest <? 0) || (100 <? rest) then raise ValueError else ret tt) ;;
  (if (move <? 0) || (100 <? move) then raise ValueError else ret tt) ;;
  SCC_SetPowerParams rest move.

(** [get_limit_switch_params] *)
Definition get_limit_switch_params : M Sdk (Z * Z * Z * Z * Z) :=
  stored <- SCC_GetLimitSwitchParams ;;
  let '(cw_lim, ccw_lim, cw_pos, ccw_pos, soft) := stored in
  cw_mode <- lift (enum_or_swapped MOT_LimitSwitchModes cw_lim) ;;
  ccw_mode <- lift (enum_or_swapped MOT_LimitSwitchModes ccw_lim) ;;
  s_mode <- lift (enum_or_swapped MOT_LimitSwitchSWModes soft) ;;
  ret (cw_mode, ccw_mode, cw_pos, ccw_pos, s_mode).
End KCubeStepperMotor.

Section CalibrationFile.
Variable bytes_decode : list Byte.byte -> string -> outcome string.

(** [filename.raw.decode('utf-8').rstrip('\x00')], the value that
    [get_calibration_file] returns for the buffer [raw]. *)
Definition calibration_file_name (raw : list Byte.byte) : outcome string :=
  match bytes_decode raw "utf-8" with
  | Ok text => Ok (rstrip_nul text)
  | Raise e => Raise e
  end.
End CalibrationFile.

(** A controller that keeps the power parameters it was given, in the
    order given. *)
Definition recording_SetPowerParams (rest move : Z) : M (list (Z * Z)) unit :=
  modify (fun given => (given ++ [(rest, move)])%list).

(** Calls of [set_power_params] one after the other, each exception
    handled by the caller. *)
Fixpoint set_power_params_each (requests : list (Z * Z)) (given : list (Z * Z))
  : list (Z * Z) :=
  match requests with
  | [] => given
  | (rest, move) :: requests' =>
      set_power_params_each requests'
        (snd (set_power_params recording_SetPowerParams rest move given))
  end.

(** Power parameters that are percentages. *)
Definition power_in_range (given : Z * Z) : Prop :=
  0 <= fst given <= 100 /\ 0 <= snd given <= 100.

(** An enumeration for concrete runs: the values 1 to 6, and the same
    with bit 7 set, 129 to 134. *)
Definition sample_modes (value : Z) : bool :=
  ((1 <=? value) && (value <=? 6)) || ((129 <=? value) && (value <=? 134)).

(** ** Properties *)

(** *** Construction *)

(** C7. A freshly constructed object has [read_termination] equal to the
    line-feed character, [write_termination] equal to carriage-return
    followed by line-feed, [encoding] equal to UTF-8, [max_read_size] equal
    to 65536 and no timeout. *)
Theorem init_defaults :
  read_termination __init__ = Some (String (ascii_of_nat 10) EmptyString) /\
  write_termination __init__ =
    Some (String (ascii_of_nat 13) (String (ascii_of_nat 10) EmptyString)) /\
  encoding __init__ = "utf-8" /\
  max_read_size __init__ = 65536 /\
  timeout __init__ = None.
Proof. repeat split. Qed.

(** *** max_read_size *)

Lemma max_read_size_setter_accepts (size : pyval) (self : ConnectionMessageBased) :
  isinstance_int size = true -> 1 <= py_int size ->
  max_read_size_setter size self = (Ok tt, set_max_read_size (py_int size) self).
Proof.
  intros Hint Hpos. unfold max_read_size_setter.
  rewrite Hint. simpl.
  destruct (Z.ltb_spec (py_int size) 1); [lia | reflexivity].
Qed.

Lemma max_read_size_setter_rejects (size : pyval) (self : ConnectionMessageBased) :
  isinstance_int size = false \/ py_int size < 1 ->
  max_read_size_setter size self = (Raise ValueError, self).
Proof.
  intros [Hint | Hlow]; unfold max_read_size_setter.
  - rewrite Hint. reflexivity.
  - destruct (Z.ltb_spec (py_int size) 1); [| lia].
    rewrite orb_true_r. reflexivity.
Qed.

(** C3. For every integer n >= 1 the setter of [max_read_size] succeeds and
    the stored limit becomes n; for every value that is not an integer, or
    is an integer <= 0, it raises [ValueError] and the object, so the
    stored limit, is unchanged. *)
Theorem max_read_size_setter_spec (self : ConnectionMessageBased) :
  (forall n : Z, 1 <= n ->
     max_read_size_setter (PyInt n) self = (Ok tt, set_max_read_size n self) /\
     max_read_size (snd (max_read_size_setter (PyInt n) self)) = n) /\
  (forall size : pyval,
     isinstance_int size = false \/ (isinstance_int size = true /\ py_int size <= 0) ->
     max_read_size_setter size self = (Raise ValueError, self) /\
     max_read_size (snd (max_read_size_setter size self)) = max_read_size self).
Proof.
  split.
  - intros n Hn.
    rewrite (max_read_size_setter_accepts (PyInt n) self eq_refl Hn).
    split; reflexivity.
  - intros size Hsize.
    rewrite max_read_size_setter_rejects.
    + split; reflexivity.
    + destruct Hsize as [Hint | [_ Hlow]]; [left; exact Hint | right; lia].
Qed.

Lemma max_read_size_setter_spec_witness :
  max_read_size_setter (PyInt 4096) __init__ = (Ok tt, set_max_read_size 4096 __init__) /\
  max_read_size_setter (PyFloat float_five) __init__ = (Raise ValueError, __init__) /\
  max_read_size_setter (PyInt 0) __init__ = (Raise ValueError, __init__).
Proof.
  destruct (max_read_size_setter_spec __init__) as [Haccept Hreject].
  split; [| split].
  - apply (Haccept 4096). lia.
  - apply (Hreject (PyFloat float_five)). left. reflexivity.
  - apply (Hreject (PyInt 0)). right. split; [reflexivity | simpl; lia].
Defined.

(** C10. The setter of [max_read_size] takes a boolean as the integer it
    is: [True] is accepted and the limit 1 is stored, [False] raises
    [ValueError], and no boolean fails the test of being an integer. *)
Theorem max_read_size_setter_bool (self : ConnectionMessageBased) :
  max_read_size_setter (PyBool true) self = (Ok tt, set_max_read_size 1 self) /\
  max_read_size (snd (max_read_size_setter (PyBool true) self)) = 1 /\
  max_read_size_setter (PyBool false) self = (Raise ValueError, self) /\
  (forall b : bool, isinstance_int (PyBool b) = true).
Proof. repeat split. Qed.

(** *** The timeout *)

(** Comparisons of a float with zero. *)
Lemma float_positive_not_zero (t : float) :
  SFltb float_zero t = true -> SFeqb t float_zero = false /\ SFltb t float_zero = false.
Proof.
  destruct t as [s | s | | s m e]; try destruct s; cbn; intro Hpos;
    try discriminate Hpos; split; reflexivity.
Qed.

Lemma float_negative_not_zero (t : float) :
  SFltb t float_zero = true -> SFeqb t float_zero = false.
Proof.
  destruct t as [s | s | | s m e]; try destruct s; cbn; intro Hneg;
    try discriminate Hneg; reflexivity.
Qed.

(** The conversion of an integer keeps its sign: the mantissa that the
    rounding shifts to the right keeps its leading bit. *)
Lemma digits2_pos_log2 (m : positive) :
  Zpos (digits2_pos m) = Z.log2 (Zpos m) + 1.
Proof.
  assert (Hsize : forall p, digits2_pos p = Pos.size p)
    by (induction p as [p IH | p IH |]; simpl; [rewrite IH | rewrite IH |]; reflexivity).
  destruct m as [p | p |]; simpl; rewrite ?Hsize; lia.
Qed.

Lemma shr_1_m (r : shr_record) :
  0 <= shr_m r -> shr_m (shr_1 r) = Z.shiftr (shr_m r) 1.
Proof.
  destruct r as [m rb sb]. simpl. intro Hm.
  rewrite <- Z.div2_spec.
  destruct m as [| [p | p |] | p]; try reflexivity; lia.
Qed.

Lemma iter_pos_shr_1_m (n : positive) :
  forall r : shr_record,
    0 <= shr_m r -> shr_m (iter_pos shr_1 n r) = Z.shiftr (shr_m r) (Zpos n).
Proof.
  induction n as [n IH | n IH |]; intros r Hm; simpl.
  - assert (H1 : 0 <= shr_m (shr_1 r))
      by (rewrite shr_1_m by exact Hm; apply Z.shiftr_nonneg; exact Hm).
    assert (H2 : 0 <= shr_m (iter_pos shr_1 n (shr_1 r)))
      by (rewrite IH by exact H1; apply Z.shiftr_nonneg; exact H1).
    rewrite IH by exact H2. rewrite IH by exact H1. rewrite shr_1_m by exact Hm.
    rewrite !Z.shiftr_shiftr by lia. f_equal. lia.
  - assert (H2 : 0 <= shr_m (iter_pos shr_1 n r))
      by (rewrite IH by exact Hm; apply Z.shiftr_nonneg; exact Hm).
    rewrite IH by exact H2. rewrite IH by exact Hm.
    rewrite Z.shiftr_shiftr by lia. f_equal. lia.
  - apply shr_1_m. exact Hm.
Qed.

Lemma shr_fexp_positive (m : positive) (ex : Z) (l : location) :
  emin prec emax <= ex ->
  0 < shr_m (fst (shr_fexp prec emax (Zpos m) ex l)) /\
  emin prec emax <= snd (shr_fexp prec emax (Zpos m) ex l).
Proof.
  intro Hex. unfold shr_fexp, shr.
  assert (Hrec : shr_m (shr_record_of_loc (Zpos m) l) = Zpos m)
    by (destruct l as [| []]; reflexivity).
  destruct (fexp prec emax (Zdigits2 (Z.pos m) + ex) - ex) as [| n | n] eqn:Hn;
    simpl fst; simpl snd.
  - rewrite Hrec. split; lia.
  - rewrite iter_pos_shr_1_m by (rewrite Hrec; lia). rewrite Hrec.
    unfold fexp, emin, prec, emax in *. simpl Zdigits2 in Hn.
    rewrite digits2_pos_log2 in Hn.
    split; [| lia].
    destruct (Z.shiftr_eq_0_iff (Z.pos m) (Z.pos n)) as [Hzero _].
    assert (0 <= Z.shiftr (Z.pos m) (Z.pos n)) by (apply Z.shiftr_nonneg; lia).
    destruct (Z.eq_dec (Z.shiftr (Z.pos m) (Z.pos n)) 0) as [H0 | H0]; [| lia].
    destruct (Hzero H0) as [Hm | [_ Hlog]]; lia.
  - rewrite Hrec. split; lia.
Qed.

Lemma round_nearest_even_positive (m : Z) (l : location) :
  0 < m -> 0 < round_nearest_even m l.
Proof.
  intro Hm. destruct l as [| []]; simpl; try lia.
  destruct (Z.even m); lia.
Qed.

Lemma binary_round_aux_signed (s : bool) (m : positive) (ex : Z) (l : location) :
  emin prec emax <= ex ->
  signed s (binary_round_aux prec emax s (Zpos m) ex l).
Proof.
  intro Hex. unfold binary_round_aux.
  destruct (shr_fexp_positive m ex l Hex) as [Hm1 He1].
  destruct (shr_fexp prec emax (Z.pos m) ex l) as [mrs1 e1].
  simpl fst in Hm1. simpl snd in He1.
  pose proof (round_nearest_even_positive (shr_m mrs1) (loc_of_shr_record mrs1) Hm1)
    as Hround.
  destruct (round_nearest_even (shr_m mrs1) (loc_of_shr_record mrs1))
    as [| m2 | m2]; try lia.
  destruct (shr_fexp_positive m2 e1 loc_Exact He1) as [Hm2 _].
  destruct (shr_fexp prec emax (Z.pos m2) e1 loc_Exact) as [mrs2 e2].
  simpl fst in Hm2.
  destruct (shr_m mrs2) as [| m3 | m3]; try lia.
  destruct (e2 <=? emax - prec); reflexivity.
Qed.

Lemma binary_round_signed (s : bool) (m : positive) :
  signed s (binary_round prec emax s m 0).
Proof.
  unfold binary_round, shl_align.
  destruct (fexp prec emax (Z.pos (digits2_pos m) + 0) - 0) as [| d | d] eqn:Hd;
    apply binary_round_aux_signed; unfold fexp, emin, prec, emax in *; lia.
Qed.

Lemma float_of_int_positive (n : Z) (t : float) :
  0 < n -> float_of_int n = Ok t -> SFltb float_zero t = true.
Proof.
  intros Hn Hconv. unfold float_of_int in Hconv.
  destruct n as [| m | m]; try lia. simpl binary_normalize in Hconv.
  pose proof (binary_round_signed false m) as Hsign.
  destruct (binary_round prec emax false m 0) as [s | s | | s p e];
    simpl in Hsign; try contradiction; try discriminate Hconv.
  inversion Hconv. subst. reflexivity.
Qed.

Lemma float_of_int_negative (n : Z) (t : float) :
  n < 0 -> float_of_int n = Ok t -> SFltb t float_zero = true.
Proof.
  intros Hn Hconv. unfold float_of_int in Hconv.
  destruct n as [| m | m]; try lia. simpl binary_normalize in Hconv.
  pose proof (binary_round_signed true m) as Hsign.
  destruct (binary_round prec emax true m 0) as [s | s | | s p e];
    simpl in Hsign; try contradiction; try discriminate Hconv.
  inversion Hconv. subst. reflexivity.
Qed.

Section TimeoutFacts.
Variable float_of_str : string -> option float.

(** The three outcomes of a call with a value that [float] converts. *)
Lemma set_timeout_value_converted (value : pyval) (t : float)
  (self : ConnectionMessageBased) :
  py_float float_of_str value = Ok t ->
  _set_timeout_value float_of_str value self =
    if SFeqb t float_zero then (Ok tt, set_timeout None self)
    else if SFltb t float_zero then (Raise ValueError, set_timeout (Some t) self)
    else (Ok tt, set_timeout (Some t) self).
Proof.
  intro Hconv.
  destruct value; try (cbn in Hconv; discriminate Hconv);
    unfold _set_timeout_value, bind, lift, modify; rewrite Hconv;
    destruct (SFeqb t float_zero); try reflexivity;
    destruct (SFltb t float_zero); reflexivity.
Qed.

(** A value that [float] refuses leaves the object as it was. *)
Lemma set_timeout_value_refused (value : pyval) (e : exn)
  (self : ConnectionMessageBased) :
  py_float float_of_str value = Raise e -> value <> PyNone ->
  _set_timeout_value float_of_str value self = (Raise e, self).
Proof.
  intros Hconv Hsome.
  destruct value; try contradiction;
    unfold _set_timeout_value, bind, lift; rewrite Hconv; reflexivity.
Qed.

(** A negative value is stored before it is rejected. *)
Lemma set_timeout_value_negative (value : pyval) (t : float)
  (self : ConnectionMessageBased) :
  py_float float_of_str value = Ok t -> SFltb t float_zero = true ->
  _set_timeout_value float_of_str value self = (Raise ValueError, set_timeout (Some t) self).
Proof.
  intros Hconv Hneg.
  rewrite (set_timeout_value_converted value t self Hconv).
  rewrite (float_negative_not_zero t Hneg), Hneg. reflexivity.
Qed.

Lemma set_timeout_value_negative_int (n : Z) (t : float)
  (self : ConnectionMessageBased) :
  n < 0 -> float_of_int n = Ok t ->
  _set_timeout_value float_of_str (PyInt n) self
    = (Raise ValueError, set_timeout (Some t) self).
Proof.
  intros Hn Hconv.
  apply (set_timeout_value_negative (PyInt n) t self Hconv).
  apply (float_of_int_negative n t Hn Hconv).
Qed.

(** C1 (the code departs from it). On a fresh object, the call with -1.0
    raises [ValueError] and the stored timeout, unset before the call, is
    -1.0 after it; the same holds for the integer -1. *)
Theorem set_timeout_value_negative_is_stored :
  _set_timeout_value float_of_str (PyFloat float_minus_one) __init__
    = (Raise ValueError, set_timeout (Some float_minus_one) __init__) /\
  timeout (snd (_set_timeout_value float_of_str (PyFloat float_minus_one) __init__))
    = Some float_minus_one /\
  timeout __init__ = None /\
  _set_timeout_value float_of_str (PyInt (-1)) __init__
    = (Raise ValueError, set_timeout (Some float_minus_one) __init__).
Proof. repeat split. Qed.

(** C2, as amended. The call with [None] succeeds and changes nothing:
    the stored timeout after the call is the one stored before it, so it
    is unset afterwards exactly when it was unset before. *)
Theorem set_timeout_value_none_keeps (self : ConnectionMessageBased) :
  _set_timeout_value float_of_str PyNone self = (Ok tt, self) /\
  timeout (snd (_set_timeout_value float_of_str PyNone self)) = timeout self.
Proof. split; reflexivity. Qed.

(** C8. For every float t > 0 the call stores t; more generally every
    value that [float] converts to a t > 0 stores that t, and so does
    every integer n > 0 that [float] converts. The call with zero, as [0],
    [0.0], [-0.0] or [False], succeeds and stores no timeout, whatever was
    stored before. *)
Theorem set_timeout_value_positive_and_zero (self : ConnectionMessageBased) :
  (forall t : float, SFltb float_zero t = true ->
     _set_timeout_value float_of_str (PyFloat t) self = (Ok tt, set_timeout (Some t) self) /\
     timeout (snd (_set_timeout_value float_of_str (PyFloat t) self)) = Some t) /\
  (forall (value : pyval) (t : float),
     py_float float_of_str value = Ok t -> SFltb float_zero t = true ->
     _set_timeout_value float_of_str value self = (Ok tt, set_timeout (Some t) self)) /\
  (forall (n : Z) (t : float),
     0 < n -> float_of_int n = Ok t ->
     _set_timeout_value float_of_str (PyInt n) self
       = (Ok tt, set_timeout (Some t) self)) /\
  (forall (value : pyval) (t : float),
     py_float float_of_str value = Ok t -> SFeqb t float_zero = true ->
     _set_timeout_value float_of_str value self = (Ok tt, set_timeout None self)) /\
  (forall value : pyval,
     In value [PyInt 0; PyFloat float_zero; PyFloat (S754_zero true); PyBool false] ->
     _set_timeout_value float_of_str value self = (Ok tt, set_timeout None self) /\
     timeout (snd (_set_timeout_value float_of_str value self)) = None).
Proof.
  assert (Hpos : forall (value : pyval) (t : float),
             py_float float_of_str value = Ok t -> SFltb float_zero t = true ->
             _set_timeout_value float_of_str value self = (Ok tt, set_timeout (Some t) self)).
  { intros value t Hconv Hgt.
    rewrite (set_timeout_value_converted value t self Hconv).
    destruct (float_positive_not_zero t Hgt) as [Hne Hnlt].
    rewrite Hne, Hnlt. reflexivity. }
  split; [| split; [exact Hpos | split; [| split]]].
  - intros t Hgt. rewrite (Hpos (PyFloat t) t eq_refl Hgt). split; reflexivity.
  - intros n t Hn Hconv.
    apply (Hpos (PyInt n) t Hconv). apply (float_of_int_positive n t Hn Hconv).
  - intros value t Hconv Hzero.
    rewrite (set_timeout_value_converted value t self Hconv), Hzero. reflexivity.
  - intros value Hin. cbn in Hin.
    destruct Hin as [<- | [<- | [<- | [<- | []]]]]; split; reflexivity.
Qed.
End TimeoutFacts.

(** C2 as stated fails: a stored timeout of 5.0 survives the call with
    [None]. *)
Lemma set_timeout_value_none_does_not_clear :
  ~ (forall (float_of_str : string -> option float) (self : ConnectionMessageBased),
       timeout (snd (_set_timeout_value float_of_str PyNone self)) = None).
Proof.
  intro Hclears.
  specialize (Hclears sample_float_of_str (set_timeout (Some float_five) __init__)).
  cbn in Hclears. discriminate Hclears.
Qed.

Lemma set_timeout_value_positive_and_zero_witness :
  _set_timeout_value sample_float_of_str (PyFloat float_half) __init__
    = (Ok tt, set_timeout (Some float_half) __init__) /\
  _set_timeout_value sample_float_of_str (PyStr "5") __init__
    = (Ok tt, set_timeout (Some float_five) __init__) /\
  _set_timeout_value sample_float_of_str (PyInt 5) __init__
    = (Ok tt, set_timeout (Some float_five) __init__) /\
  _set_timeout_value sample_float_of_str (PyFloat (S754_zero true))
      (set_timeout (Some float_five) __init__)
    = (Ok tt, set_timeout None (set_timeout (Some float_five) __init__)) /\
  _set_timeout_value sample_float_of_str (PyInt 0)
      (set_timeout (Some float_five) __init__)
    = (Ok tt, set_timeout None (set_timeout (Some float_five) __init__)).
Proof.
  destruct (set_timeout_value_positive_and_zero sample_float_of_str __init__)
    as [Hfloat [Hvalue [Hint _]]].
  destruct (set_timeout_value_positive_and_zero sample_float_of_str
              (set_timeout (Some float_five) __init__))
    as [_ [_ [_ [Hzero Hzeros]]]].
  split; [| split; [| split; [| split]]].
  - apply Hfloat. reflexivity.
  - apply (Hvalue (PyStr "5") float_five); reflexivity.
  - apply (Hint 5 float_five); [lia | reflexivity].
  - apply (Hzero (PyFloat (S754_zero true)) (S754_zero true)); reflexivity.
  - apply Hzeros. simpl. left. reflexivity.
Defined.

(** *** The encoding *)

Section EncodingFacts.
Variable str_encode : string -> string -> outcome (list Byte.byte).
Variable bytes_decode : list Byte.byte -> string -> outcome string.
Variable float_of_str : string -> option float.

Lemma encoding_setter_raises (name : string) (e : exn)
  (self : ConnectionMessageBased) :
  round_trip str_encode bytes_decode name = Raise e ->
  encoding_setter str_encode bytes_decode name self = (Raise e, self).
Proof.
  intro Hfail. unfold encoding_setter, bind, lift. rewrite Hfail. reflexivity.
Qed.

Lemma encoding_setter_returns (name text : string)
  (self : ConnectionMessageBased) :
  round_trip str_encode bytes_decode name = Ok text ->
  encoding_setter str_encode bytes_decode name self = (Ok tt, set_encoding name self).
Proof.
  intro Hok. unfold encoding_setter, bind, lift. rewrite Hok. reflexivity.
Qed.

(** No setter but that of the encoding touches the stored encoding. *)
Lemma max_read_size_setter_encoding (size : pyval) (self : ConnectionMessageBased) :
  encoding (snd (max_read_size_setter size self)) = encoding self.
Proof.
  unfold max_read_size_setter.
  destruct (negb (isinstance_int size) || (py_int size <? 1)); reflexivity.
Qed.

Lemma set_timeout_value_encoding (value : pyval) (self : ConnectionMessageBased) :
  encoding (snd (_set_timeout_value float_of_str value self)) = encoding self.
Proof.
  destruct value; try reflexivity;
    unfold _set_timeout_value, bind, lift, modify;
    match goal with
    | |- context [py_float ?p ?v] => destruct (py_float p v) as [t | e]
    end; try reflexivity;
    destruct (SFeqb t float_zero); try reflexivity;
    destruct (SFltb t float_zero); reflexivity.
Qed.

(** One assignment keeps the stored encoding one that round-trips. *)
Lemma assign_round_trips (a : assignment) (self : ConnectionMessageBased) :
  round_trips str_encode bytes_decode (encoding self) ->
  round_trips str_encode bytes_decode
    (encoding (snd (assign str_encode bytes_decode float_of_str a self))).
Proof.
  intro Hinv. destruct a as [name | size | value | t | t]; simpl.
  - destruct (round_trip str_encode bytes_decode name) as [text | e] eqn:Hprobe.
    + rewrite (encoding_setter_returns name text self Hprobe). simpl.
      exists text. exact Hprobe.
    + rewrite (encoding_setter_raises name e self Hprobe). exact Hinv.
  - rewrite max_read_size_setter_encoding. exact Hinv.
  - rewrite set_timeout_value_encoding. exact Hinv.
  - exact Hinv.
  - exact Hinv.
Qed.

Lemma lifetime_round_trips (l : list assignment) :
  forall self : ConnectionMessageBased,
    round_trips str_encode bytes_decode (encoding self) ->
    round_trips str_encode bytes_decode
      (encoding (lifetime str_encode bytes_decode float_of_str l self)).
Proof.
  induction l as [| a l IH]; intros self Hinv; simpl.
  - exact Hinv.
  - apply IH. apply assign_round_trips. exact Hinv.
Qed.

(** C4. The setter of the encoding encodes the probe string with the codec
    named and decodes the result with it. If either step raises, the setter
    raises that exception and the object, so the stored encoding, is
    unchanged; if both return, the stored encoding becomes the new name.
    Hence, in a registry where UTF-8 round-trips, the stored encoding
    round-trips after every sequence of assignments on a fresh object. *)
Theorem encoding_setter_spec (name : string) (self : ConnectionMessageBased) :
  (forall e : exn,
     str_encode "test encoding" name = Raise e ->
     encoding_setter str_encode bytes_decode name self = (Raise e, self)) /\
  (forall (data : list Byte.byte) (e : exn),
     str_encode "test encoding" name = Ok data ->
     bytes_decode data name = Raise e ->
     encoding_setter str_encode bytes_decode name self = (Raise e, self)) /\
  (forall (data : list Byte.byte) (text : string),
     str_encode "test encoding" name = Ok data ->
     bytes_decode data name = Ok text ->
     encoding_setter str_encode bytes_decode name self
       = (Ok tt, set_encoding name self) /\
     encoding (set_encoding name self) = name) /\
  (round_trips str_encode bytes_decode "utf-8" ->
   forall l : list assignment,
     round_trips str_encode bytes_decode
       (encoding (lifetime str_encode bytes_decode float_of_str l __init__))).
Proof.
  split; [| split; [| split]].
  - intros e Henc. apply encoding_setter_raises.
    unfold round_trip. rewrite Henc. reflexivity.
  - intros data e Henc Hdec. apply encoding_setter_raises.
    unfold round_trip. rewrite Henc. exact Hdec.
  - intros data text Henc Hdec. split; [| reflexivity].
    apply (encoding_setter_returns name text).
    unfold round_trip. rewrite Henc. exact Hdec.
  - intros Hutf8 l. apply lifetime_round_trips. exact Hutf8.
Qed.
End EncodingFacts.

Lemma encoding_setter_spec_witness :
  encoding_setter sample_encode sample_decode "not-a-real-codec" __init__
    = (Raise LookupError, __init__) /\
  encoding_setter sample_encode sample_decode "ascii" __init__
    = (Ok tt, set_encoding "ascii" __init__) /\
  round_trips sample_encode sample_decode
    (encoding (lifetime sample_encode sample_decode sample_float_of_str
                 [SetEncoding "ascii"; SetTimeout (PyFloat float_minus_one);
                  SetEncoding "not-a-real-codec"; SetMaxReadSize (PyInt 0)]
                 __init__)).
Proof.
  split; [| split].
  - destruct (encoding_setter_spec sample_encode sample_decode sample_float_of_str
                "not-a-real-codec" __init__) as [Hraise _].
    apply Hraise. reflexivity.
  - destruct (encoding_setter_spec sample_encode sample_decode sample_float_of_str
                "ascii" __init__) as [_ [_ [Hreturn _]]].
    apply (Hreturn (list_byte_of_string "test encoding") "test encoding");
      reflexivity.
  - destruct (encoding_setter_spec sample_encode sample_decode sample_float_of_str
                "ascii" __init__) as [_ [_ [_ Hlife]]].
    apply Hlife. exists "test encoding". reflexivity.
Defined.

(** *** query *)

Section QueryFacts.
Context {Dev : Type} `{MessageBased Dev}.
Variable time_sleep : pyval -> M Dev unit.

(** What a step on the device leaves of the record of calls. *)
Lemma on_device_calls {A : Type} (c : M Dev A) (w : world Dev) :
  calls (snd (on_device c w)) = calls w.
Proof. unfold on_device. destruct (c (device w)). reflexivity. Qed.

Lemma write_calls (message : string) (w : world Dev) :
  calls (snd (write message w)) = (calls w ++ [CallWrite message])%list.
Proof.
  unfold write, bind, record_call, modify.
  match goal with
  | |- context [on_device ?c ?w'] =>
      pose proof (on_device_calls c w') as Hdev; destruct (on_device c w') as [[n | e] w1]
  end; exact Hdev.
Qed.

Lemma read_calls (size : pyval) (w : world Dev) :
  calls (snd (read size w)) = (calls w ++ [CallRead size])%list.
Proof.
  unfold read, bind, record_call, modify.
  match goal with
  | |- context [on_device ?c ?w'] =>
      pose proof (on_device_calls c w') as Hdev; destruct (on_device c w') as [[s | e] w1]
  end; exact Hdev.
Qed.

Lemma sleep_calls (delay : pyval) (w : world Dev) :
  calls (snd (sleep time_sleep delay w)) = (calls w ++ [CallSleep delay])%list.
Proof.
  unfold sleep, bind, record_call, modify.
  match goal with
  | |- context [on_device ?c ?w'] =>
      pose proof (on_device_calls c w') as Hdev; destruct (on_device c w') as [[u | e] w1]
  end; exact Hdev.
Qed.

(** [query] is its three steps in sequence. *)
Lemma query_steps (message : string) (delay size : pyval) (w : world Dev) :
  query time_sleep message delay size w =
    (write message ;; pause time_sleep delay ;; read size) w.
Proof.
  unfold query, pause, bind, lift.
  destruct (write message w) as [[n | e] w1]; [| reflexivity].
  destruct (py_gt_zero delay) as [[|] | e]; reflexivity.
Qed.

Lemma query_write_raises (message : string) (delay size : pyval)
  (w w1 : world Dev) (e : exn) :
  write message w = (Raise e, w1) ->
  query time_sleep message delay size w = (Raise e, w1).
Proof.
  intro Hwrite. unfold query, bind. rewrite Hwrite. reflexivity.
Qed.

Lemma query_write_returns (message : string) (delay size : pyval)
  (w w1 : world Dev) (n : Z) :
  write message w = (Ok n, w1) ->
  query time_sleep message delay size w =
    (pause time_sleep delay ;; read size) w1.
Proof.
  intro Hwrite. rewrite query_steps. unfold bind at 1. rewrite Hwrite. reflexivity.
Qed.

Lemma pause_not_positive (delay : pyval) (w : world Dev) :
  py_gt_zero delay = Ok false -> pause time_sleep delay w = (Ok tt, w).
Proof.
  intro Hzero. unfold pause, bind, lift. rewrite Hzero. reflexivity.
Qed.

Lemma pause_positive (delay : pyval) (w : world Dev) :
  py_gt_zero delay = Ok true -> pause time_sleep delay w = sleep time_sleep delay w.
Proof.
  intro Hpos. unfold pause, bind, lift. rewrite Hpos. reflexivity.
Qed.

(** A delay that is not positive: [query] is [write] then [read]. *)
Lemma query_not_positive (message : string) (delay size : pyval) (w : world Dev) :
  py_gt_zero delay = Ok false ->
  query time_sleep message delay size w = write_then_read message size w.
Proof.
  intro Hzero. unfold write_then_read.
  destruct (write message w) as [[n | e] w1] eqn:Hwrite.
  - rewrite (query_write_returns message delay size w w1 n Hwrite).
    unfold bind at 1. rewrite (pause_not_positive delay w1 Hzero).
    unfold bind. rewrite Hwrite. reflexivity.
  - rewrite (query_write_raises message delay size w w1 e Hwrite).
    unfold bind. rewrite Hwrite. reflexivity.
Qed.

(** C5. With a delay of zero, given as [0] or as [0.0], [query] is [write]
    followed at once by [read]: its outcome and the state it leaves are
    those of the two calls in sequence; when [write] raises so does
    [query], otherwise [query] returns what [read] returns on the state
    [write] left; and the calls made are that [write] and that [read],
    with no call of [time.sleep]. *)
Theorem query_zero_delay (message : string) (delay size : pyval) (w : world Dev) :
  delay = PyInt 0 \/ delay = PyFloat float_zero ->
  query time_sleep message delay size w = write_then_read message size w /\
  (forall (e : exn) (w1 : world Dev),
     write message w = (Raise e, w1) ->
     query time_sleep message delay size w = (Raise e, w1) /\
     calls w1 = (calls w ++ [CallWrite message])%list) /\
  (forall (n : Z) (w1 : world Dev),
     write message w = (Ok n, w1) ->
     query time_sleep message delay size w = read size w1 /\
     calls (snd (query time_sleep message delay size w))
       = (calls w ++ [CallWrite message; CallRead size])%list).
Proof.
  intro Hdelay.
  assert (Hzero : py_gt_zero delay = Ok false)
    by (destruct Hdelay as [-> | ->]; reflexivity).
  split; [| split].
  - apply query_not_positive. exact Hzero.
  - intros e w1 Hwrite. split.
    + apply query_write_raises. exact Hwrite.
    + rewrite <- (write_calls message w), Hwrite. reflexivity.
  - intros n w1 Hwrite.
    assert (Hquery : query time_sleep message delay size w = read size w1).
    { rewrite (query_write_returns message delay size w w1 n Hwrite).
      unfold bind. rewrite (pause_not_positive delay w1 Hzero). reflexivity. }
    split; [exact Hquery |].
    rewrite Hquery, read_calls.
    replace (calls w1) with (calls (snd (write message w)))
      by (rewrite Hwrite; reflexivity).
    rewrite write_calls, <- app_assoc. reflexivity.
Qed.

(** C6. If [write] raises, [query] raises the same exception in the state
    [write] left, where the only call made is that [write]: neither
    [time.sleep] nor [read] is called. If [write] returns, the wait
    between the calls returns and [read] raises, [query] raises the
    exception of [read] in the state [read] left, where [read] was called
    once; an exception of the wait itself is passed on as it is. *)
Theorem query_passes_errors_on (message : string) (delay size : pyval)
  (w : world Dev) :
  (forall (e : exn) (w1 : world Dev),
     write message w = (Raise e, w1) ->
     query time_sleep message delay size w = (Raise e, w1) /\
     calls w1 = (calls w ++ [CallWrite message])%list) /\
  (forall (n : Z) (w1 w2 w3 : world Dev) (e : exn),
     write message w = (Ok n, w1) ->
     pause time_sleep delay w1 = (Ok tt, w2) ->
     read size w2 = (Raise e, w3) ->
     query time_sleep message delay size w = (Raise e, w3) /\
     calls w3 = (calls w2 ++ [CallRead size])%list) /\
  (forall (n : Z) (w1 w2 : world Dev) (e : exn),
     write message w = (Ok n, w1) ->
     pause time_sleep delay w1 = (Raise e, w2) ->
     query time_sleep message delay size w = (Raise e, w2)).
Proof.
  split; [| split].
  - intros e w1 Hwrite. split.
    + apply query_write_raises. exact Hwrite.
    + rewrite <- (write_calls message w), Hwrite. reflexivity.
  - intros n w1 w2 w3 e Hwrite Hpause Hread. split.
    + rewrite (query_write_returns message delay size w w1 n Hwrite).
      unfold bind. rewrite Hpause. exact Hread.
    + rewrite <- (read_calls size w2), Hread. reflexivity.
  - intros n w1 w2 e Hwrite Hpause.
    rewrite (query_write_returns message delay size w w1 n Hwrite).
    unfold bind. rewrite Hpause. reflexivity.
Qed.

Lemma sleep_on_device (delay : pyval) (w1 w2 : world Dev) :
  sleep time_sleep delay w1 = (Ok tt, w2) ->
  time_sleep delay (device w1) = (Ok tt, device w2).
Proof.
  unfold sleep, bind, record_call, modify, on_device. simpl.
  destruct (time_sleep delay (device w1)) as [[[] | e] d]; intro Hsleep;
    inversion Hsleep; reflexivity.
Qed.

(** C9. Let [time.sleep] keep its contract: when it returns, the clock
    has advanced by at least the delay asked for. For every delay d > 0,
    once [write] has returned, [query] calls [time.sleep(d)] and nothing
    before it; if that call raises, [query] raises with it and [read] is
    not called; if it returns, [query] goes on as [read] on the state the
    sleep left, so [read] is called after the sleep, at a time that is at
    least d seconds after [write] returned. *)
Theorem query_positive_delay (now : Dev -> Q) (message : string)
  (delay size : pyval) (w w1 : world Dev) (n : Z) :
  (forall (v : pyval) (d d' : Dev),
     time_sleep v d = (Ok tt, d') -> (now d + seconds v <= now d')%Q) ->
  py_gt_zero delay = Ok true ->
  write message w = (Ok n, w1) ->
  calls w1 = (calls w ++ [CallWrite message])%list /\
  (forall (e : exn) (w2 : world Dev),
     sleep time_sleep delay w1 = (Raise e, w2) ->
     query time_sleep message delay size w = (Raise e, w2) /\
     calls w2 = (calls w1 ++ [CallSleep delay])%list) /\
  (forall w2 : world Dev,
     sleep time_sleep delay w1 = (Ok tt, w2) ->
     query time_sleep message delay size w = read size w2 /\
     calls w2 = (calls w1 ++ [CallSleep delay])%list /\
     calls (snd (read size w2)) = (calls w2 ++ [CallRead size])%list /\
     (now (device w1) + seconds delay <= now (device w2))%Q).
Proof.
  intros Hcontract Hpos Hwrite.
  split; [| split].
  - rewrite <- (write_calls message w), Hwrite. reflexivity.
  - intros e w2 Hsleep. split.
    + rewrite (query_write_returns message delay size w w1 n Hwrite).
      unfold bind. rewrite (pause_positive delay w1 Hpos), Hsleep. reflexivity.
    + rewrite <- (sleep_calls delay w1), Hsleep. reflexivity.
  - intros w2 Hsleep. split; [| split; [| split]].
    + rewrite (query_write_returns message delay size w w1 n Hwrite).
      unfold bind. rewrite (pause_positive delay w1 Hpos), Hsleep. reflexivity.
    + rewrite <- (sleep_calls delay w1), Hsleep. reflexivity.
    + apply read_calls.
    + apply (Hcontract delay). apply sleep_on_device. exact Hsleep.
Qed.
End QueryFacts.

(** A positive delay that is finite lasts a positive number of seconds. *)
Lemma seconds_positive (delay : pyval) :
  py_gt_zero delay = Ok true ->
  delay <> PyFloat (S754_infinity false) ->
  (0 < seconds delay)%Q.
Proof.
  intros Hpos Hfinite.
  destruct delay as [| b | n | f | s]; simpl in Hpos; try discriminate Hpos.
  - inversion Hpos. subst. reflexivity.
  - inversion Hpos as [Hn]. apply Z.ltb_lt in Hn.
    unfold seconds, Qlt. simpl. lia.
  - inversion Hpos as [Hf].
    destruct f as [sg | sg | | sg m e]; try destruct sg;
      try discriminate Hf; try (contradiction Hfinite; reflexivity).
    simpl. apply Qmult_lt_0_compat; [reflexivity |].
    apply Qpower_0_lt. reflexivity.
Qed.

(** On the base class itself [query] stops at [write]. *)
Example query_base_class :
  query (H := base) (fun _ => ret tt) sample_message (PyFloat float_half) PyNone
      {| device := tt; calls := [] |}
    = (Raise NotImplementedError,
       {| device := tt; calls := [CallWrite sample_message] |}).
Proof. reflexivity. Qed.

Lemma query_zero_delay_witness :
  query (H := sample_instrument) sample_sleep sample_message (PyInt 0) PyNone
      sample_world
    = write_then_read (H := sample_instrument) sample_message PyNone sample_world /\
  query (H := sample_instrument) sample_sleep sample_message (PyInt 0) PyNone
      sample_world
    = (Ok "MODEL-42",
       {| device := 0%Q; calls := [CallWrite sample_message; CallRead PyNone] |}) /\
  query (H := silent_instrument) sample_sleep sample_message (PyFloat float_zero)
      PyNone sample_world
    = (Raise MSLTimeoutError,
       {| device := 0%Q; calls := [CallWrite sample_message] |}).
Proof.
  destruct (query_zero_delay (H := sample_instrument) sample_sleep sample_message
              (PyInt 0) PyNone sample_world (or_introl eq_refl))
    as [Hsame [_ Hreturns]].
  destruct (query_zero_delay (H := silent_instrument) sample_sleep sample_message
              (PyFloat float_zero) PyNone sample_world (or_intror eq_refl))
    as [_ [Hraises _]].
  split; [exact Hsame | split].
  - destruct (Hreturns 5 {| device := 0%Q; calls := [CallWrite sample_message] |}
                eq_refl) as [Hquery _].
    rewrite Hquery. reflexivity.
  - apply (Hraises MSLTimeoutError
             {| device := 0%Q; calls := [CallWrite sample_message] |} eq_refl).
Defined.

Lemma query_passes_errors_on_witness :
  query (H := silent_instrument) sample_sleep sample_message (PyFloat float_half)
      PyNone sample_world
    = (Raise MSLTimeoutError,
       {| device := 0%Q; calls := [CallWrite sample_message] |}) /\
  query (H := mute_instrument) sample_sleep sample_message (PyInt 0) PyNone
      sample_world
    = (Raise MSLTimeoutError,
       {| device := 0%Q; calls := [CallWrite sample_message; CallRead PyNone] |}) /\
  query (H := mute_instrument) sample_sleep sample_message PyNone PyNone
      sample_world
    = (Raise TypeError,
       {| device := 0%Q; calls := [CallWrite sample_message] |}).
Proof.
  split; [| split].
  - destruct (query_passes_errors_on (H := silent_instrument) sample_sleep
                sample_message (PyFloat float_half) PyNone sample_world)
      as [Hwrite _].
    apply (Hwrite MSLTimeoutError
             {| device := 0%Q; calls := [CallWrite sample_message] |} eq_refl).
  - destruct (query_passes_errors_on (H := mute_instrument) sample_sleep
                sample_message (PyInt 0) PyNone sample_world)
      as [_ [Hread _]].
    apply (Hread 5
             {| device := 0%Q; calls := [CallWrite sample_message] |}
             {| device := 0%Q; calls := [CallWrite sample_message] |}
             {| device := 0%Q; calls := [CallWrite sample_message; CallRead PyNone] |}
             MSLTimeoutError eq_refl eq_refl eq_refl).
  - destruct (query_passes_errors_on (H := mute_instrument) sample_sleep
                sample_message PyNone PyNone sample_world)
      as [_ [_ Hpause]].
    apply (Hpause 5
             {| device := 0%Q; calls := [CallWrite sample_message] |}
             {| device := 0%Q; calls := [CallWrite sample_message] |}
             TypeError eq_refl eq_refl).
Defined.

Lemma sample_sleep_elapses (v : pyval) (d d' : Q) :
  sample_sleep v d = (Ok tt, d') -> (d + seconds v <= d')%Q.
Proof.
  unfold sample_sleep, modify. intro Hsleep.
  inversion Hsleep. apply Qle_refl.
Defined.

Lemma query_positive_delay_witness :
  query (H := sample_instrument) sample_sleep sample_message (PyFloat float_half)
      PyNone sample_world
    = (Ok "MODEL-42",
       {| device := (0 + seconds (PyFloat float_half))%Q;
          calls := [CallWrite sample_message; CallSleep (PyFloat float_half);
                    CallRead PyNone] |}) /\
  (0 + seconds (PyFloat float_half) <= 0 + seconds (PyFloat float_half))%Q.
Proof.
  destruct (query_positive_delay (H := sample_instrument) sample_sleep
              (fun clock : Q => clock) sample_message (PyFloat float_half) PyNone
              sample_world
              {| device := 0%Q; calls := [CallWrite sample_message] |} 5
              sample_sleep_elapses eq_refl eq_refl)
    as [_ [_ Hreturns]].
  destruct (Hreturns
              {| device := (0 + seconds (PyFloat float_half))%Q;
                 calls := [CallWrite sample_message;
                           CallSleep (PyFloat float_half)] |}
              eq_refl)
    as [Hquery [_ [_ Hclock]]].
  split.
  - rewrite Hquery. reflexivity.
  - exact Hclock.
Defined.

(** ** Further properties of the setters *)

Section SetterFacts.
Variable str_encode : string -> string -> outcome (list Byte.byte).
Variable bytes_decode : list Byte.byte -> string -> outcome string.
Variable float_of_str : string -> option float.

(** What a call of the timeout setter leaves of the other attributes. *)
Lemma set_timeout_value_others (value : pyval) (self : ConnectionMessageBased) :
  exists stored : option float,
    snd (_set_timeout_value float_of_str value self) = set_timeout stored self.
Proof.
  destruct (py_float float_of_str value) as [t | e] eqn:Hconv.
  - rewrite (set_timeout_value_converted float_of_str value t self Hconv).
    destruct (SFeqb t float_zero); [exists None; reflexivity |].
    destruct (SFltb t float_zero); exists (Some t); reflexivity.
  - exists (timeout self).
    destruct value; try (destruct self; reflexivity);
      rewrite (set_timeout_value_refused float_of_str _ e self Hconv)
        by discriminate;
      destruct self; reflexivity.
Qed.

Lemma max_read_size_setter_others (size : pyval) (self : ConnectionMessageBased) :
  exists stored : Z,
    snd (max_read_size_setter size self) = set_max_read_size stored self /\
    (stored = max_read_size self \/ 1 <= stored).
Proof.
  unfold max_read_size_setter.
  destruct (negb (isinstance_int size)) eqn:Hint; simpl.
  - exists (max_read_size self). split; [destruct self; reflexivity | left; reflexivity].
  - destruct (Z.ltb_spec (py_int size) 1).
    + exists (max_read_size self).
      split; [destruct self; reflexivity | left; reflexivity].
    + exists (py_int size). split; [reflexivity | right; assumption].
Qed.

Lemma encoding_setter_others (name : string) (self : ConnectionMessageBased) :
  exists stored : string,
    snd (encoding_setter str_encode bytes_decode name self) = set_encoding stored self.
Proof.
  unfold encoding_setter, bind, lift.
  destruct (round_trip str_encode bytes_decode name).
  - exists name. reflexivity.
  - exists (encoding self). destruct self; reflexivity.
Qed.


(** X2. The stored limit of a read is at least 1 after every sequence of
    assignments on a fresh object, rejected ones included. *)
Theorem max_read_size_stays_positive (l : list assignment) :
  1 <= max_read_size (lifetime str_encode bytes_decode float_of_str l __init__).
Proof.
  assert (Hinv : forall self : ConnectionMessageBased,
             1 <= max_read_size self ->
             1 <= max_read_size
                    (lifetime str_encode bytes_decode float_of_str l self)).
  { induction l as [| a l IH]; intros self Hself; simpl; [exact Hself |].
    apply IH.
    destruct a as [name | size | value | termination | termination]; simpl assign.
    - destruct (encoding_setter_others name self) as [stored ->]. exact Hself.
    - destruct (max_read_size_setter_others size self) as [stored [-> [-> | Hnew]]];
        simpl; assumption.
    - destruct (set_timeout_value_others value self) as [stored ->]. exact Hself.
    - exact Hself.
    - exact Hself. }
  apply Hinv. simpl. lia.
Qed.

Lemma set_timeout_value_stored (value : pyval) (self : ConnectionMessageBased) :
  exists stored : option float,
    snd (_set_timeout_value float_of_str value self) = set_timeout stored self /\
    (stored = timeout self \/ stored = None \/
     exists t : float, stored = Some t /\ SFeqb t float_zero = false).
Proof.
  destruct (py_float float_of_str value) as [t | e] eqn:Hconv.
  - rewrite (set_timeout_value_converted float_of_str value t self Hconv).
    destruct (SFeqb t float_zero) eqn:Hzero.
    + exists None. split; [reflexivity | right; left; reflexivity].
    + exists (Some t).
      split; [destruct (SFltb t float_zero); reflexivity |].
      right. right. exists t. split; [reflexivity | exact Hzero].
  - exists (timeout self). split; [| left; reflexivity].
    destruct value; try (destruct self; reflexivity);
      rewrite (set_timeout_value_refused float_of_str _ e self Hconv)
        by discriminate;
      destruct self; reflexivity.
Qed.

(** X3. The stored timeout is never zero: after every sequence of
    assignments on a fresh object it is unset or a float that does not
    compare equal to 0.0. *)
Theorem timeout_is_never_zero (l : list assignment) (t : float) :
  timeout (lifetime str_encode bytes_decode float_of_str l __init__) = Some t ->
  SFeqb t float_zero = false.
Proof.
  assert (Hinv : forall self : ConnectionMessageBased,
             (forall t0, timeout self = Some t0 -> SFeqb t0 float_zero = false) ->
             forall t0,
               timeout (lifetime str_encode bytes_decode float_of_str l self)
                 = Some t0 ->
               SFeqb t0 float_zero = false).
  { induction l as [| a l IH]; intros self Hself; simpl; [exact Hself |].
    apply IH.
    destruct a as [name | size | value | termination | termination]; simpl assign.
    - destruct (encoding_setter_others name self) as [stored ->]. exact Hself.
    - destruct (max_read_size_setter_others size self) as [stored [-> _]].
      exact Hself.
    - destruct (set_timeout_value_stored value self)
        as [stored [-> [-> | [-> | [t1 [-> Ht1]]]]]]; simpl.
      + exact Hself.
      + intros t0 Hnone. discriminate Hnone.
      + intros t0 Hsome. inversion Hsome. subst. exact Ht1.
    - exact Hself.
    - exact Hself. }
  apply Hinv. intros t0 Hnone. discriminate Hnone.
Qed.
End SetterFacts.

Lemma timeout_is_never_zero_witness :
  timeout (lifetime sample_encode sample_decode sample_float_of_str
             [SetTimeout (PyInt 0); SetTimeout (PyStr "5"); SetTimeout PyNone]
             __init__) = Some float_five /\
  SFeqb float_five float_zero = false.
Proof.
  split; [reflexivity |].
  apply (timeout_is_never_zero sample_encode sample_decode sample_float_of_str
           [SetTimeout (PyInt 0); SetTimeout (PyStr "5"); SetTimeout PyNone]
           float_five).
  reflexivity.
Defined.

Section TimeoutEdges.
Variable float_of_str : string -> option float.

(** X4. When the call with a value other than [None] returns, the stored
    timeout is unset or a float that is greater than zero or not a number:
    a NaN is stored without complaint. *)
Theorem set_timeout_value_returns (value : pyval) (self self' : ConnectionMessageBased) :
  value <> PyNone ->
  _set_timeout_value float_of_str value self = (Ok tt, self') ->
  timeout self' = None \/
  exists t : float,
    timeout self' = Some t /\ (SFltb float_zero t = true \/ t = S754_nan).
Proof.
  intros Hvalue Hcall.
  destruct (py_float float_of_str value) as [t | e] eqn:Hconv.
  - rewrite (set_timeout_value_converted float_of_str value t self Hconv) in Hcall.
    destruct (SFeqb t float_zero) eqn:Hzero.
    + inversion Hcall. left. reflexivity.
    + destruct (SFltb t float_zero) eqn:Hneg; [discriminate Hcall |].
      inversion Hcall. right. exists t. split; [reflexivity |].
      destruct t as [sg | sg | | sg m e]; try destruct sg;
        cbn in Hzero, Hneg; try discriminate;
        (left; reflexivity) || (right; reflexivity).
  - rewrite (set_timeout_value_refused float_of_str value e self Hconv Hvalue)
      in Hcall.
    discriminate Hcall.
Qed.

(** X5. Every value that [float] converts to a negative number, so every
    negative float and every negative integer that [float] converts, is
    stored as the timeout of the object before the call raises
    [ValueError]. *)
Theorem set_timeout_value_stores_negative (self : ConnectionMessageBased) :
  (forall t : float, SFltb t float_zero = true ->
     _set_timeout_value float_of_str (PyFloat t) self
       = (Raise ValueError, set_timeout (Some t) self) /\
     timeout (snd (_set_timeout_value float_of_str (PyFloat t) self)) = Some t) /\
  (forall (n : Z) (t : float), n < 0 -> float_of_int n = Ok t ->
     _set_timeout_value float_of_str (PyInt n) self
       = (Raise ValueError, set_timeout (Some t) self) /\
     SFltb t float_zero = true).
Proof.
  split.
  - intros t Hneg.
    rewrite (set_timeout_value_negative float_of_str (PyFloat t) t self eq_refl Hneg).
    split; reflexivity.
  - intros n t Hn Hconv. split.
    + apply set_timeout_value_negative_int; assumption.
    + apply (float_of_int_negative n t Hn Hconv).
Qed.

(** X6. A value that [float] refuses, such as a text that is no number or
    an integer beyond the range of a float, makes the call raise the
    exception of [float] and leaves the object as it was. *)
Theorem set_timeout_value_refusal (value : pyval) (e : exn)
  (self : ConnectionMessageBased) :
  value <> PyNone ->
  py_float float_of_str value = Raise e ->
  _set_timeout_value float_of_str value self = (Raise e, self) /\
  timeout (snd (_set_timeout_value float_of_str value self)) = timeout self.
Proof.
  intros Hvalue Hconv.
  rewrite (set_timeout_value_refused float_of_str value e self Hconv Hvalue).
  split; reflexivity.
Qed.

(** X7. A stored timeout is cleared by a zero and by nothing else: on an
    object with a timeout, the timeout is unset after the call exactly
    when the value is not [None] and [float] converts it to a float that
    compares equal to 0.0. *)
Theorem set_timeout_value_clears (value : pyval) (t0 : float)
  (self : ConnectionMessageBased) :
  timeout self = Some t0 ->
  (timeout (snd (_set_timeout_value float_of_str value self)) = None <->
   value <> PyNone /\
   exists t : float,
     py_float float_of_str value = Ok t /\ SFeqb t float_zero = true).
Proof.
  intro Hstored. split.
  - intro Hcleared.
    destruct (py_float float_of_str value) as [t | e] eqn:Hconv.
    + split; [intros ->; discriminate Hconv |].
      exists t. split; [reflexivity |].
      rewrite (set_timeout_value_converted float_of_str value t self Hconv)
        in Hcleared.
      destruct (SFeqb t float_zero); [reflexivity |].
      destruct (SFltb t float_zero); discriminate Hcleared.
    + exfalso. destruct value;
        try (rewrite (set_timeout_value_refused float_of_str _ e self Hconv)
               in Hcleared by discriminate);
        simpl in Hcleared; unfold timeout in *; congruence.
  - intros [Hvalue [t [Hconv Hzero]]].
    rewrite (set_timeout_value_converted float_of_str value t self Hconv), Hzero.
    reflexivity.
Qed.
End TimeoutEdges.

Lemma set_timeout_value_returns_witness :
  timeout (set_timeout (Some S754_nan) __init__) = None \/
  exists t : float,
    timeout (set_timeout (Some S754_nan) __init__) = Some t /\
    (SFltb float_zero t = true \/ t = S754_nan).
Proof.
  apply (set_timeout_value_returns sample_float_of_str (PyFloat S754_nan) __init__).
  - discriminate.
  - reflexivity.
Defined.

Lemma set_timeout_value_stores_negative_witness :
  _set_timeout_value sample_float_of_str (PyFloat (S754_infinity true))
      (set_timeout (Some float_five) __init__)
    = (Raise ValueError,
       set_timeout (Some (S754_infinity true))
         (set_timeout (Some float_five) __init__)) /\
  _set_timeout_value sample_float_of_str (PyInt (-1)) __init__
    = (Raise ValueError, set_timeout (Some float_minus_one) __init__).
Proof.
  split.
  - apply (set_timeout_value_stores_negative sample_float_of_str
             (set_timeout (Some float_five) __init__)).
    reflexivity.
  - apply (set_timeout_value_stores_negative sample_float_of_str __init__);
      [lia | reflexivity].
Defined.

Lemma set_timeout_value_refusal_witness :
  _set_timeout_value sample_float_of_str (PyStr "five")
      (set_timeout (Some float_five) __init__)
    = (Raise ValueError, set_timeout (Some float_five) __init__) /\
  _set_timeout_value sample_float_of_str (PyInt (2 ^ 1024))
      (set_timeout (Some float_five) __init__)
    = (Raise OverflowError, set_timeout (Some float_five) __init__).
Proof.
  split.
  - apply (set_timeout_value_refusal sample_float_of_str (PyStr "five") ValueError
             (set_timeout (Some float_five) __init__)).
    + discriminate.
    + reflexivity.
  - apply (set_timeout_value_refusal sample_float_of_str (PyInt (2 ^ 1024))
             OverflowError (set_timeout (Some float_five) __init__)).
    + discriminate.
    + vm_compute. reflexivity.
Defined.

Lemma set_timeout_value_clears_witness :
  timeout (snd (_set_timeout_value sample_float_of_str (PyFloat (S754_zero true))
                  (set_timeout (Some float_five) __init__))) = None.
Proof.
  apply (set_timeout_value_clears sample_float_of_str (PyFloat (S754_zero true))
           float_five (set_timeout (Some float_five) __init__) eq_refl).
  split; [discriminate |].
  exists (S754_zero true). split; reflexivity.
Defined.

(** ** Further properties of query *)

Section QueryEdges.
Context {Dev : Type} `{MessageBased Dev}.
Variable time_sleep : pyval -> M Dev unit.

(** The record of calls after each step that returned or raised. *)
Lemma write_result_calls (message : string) (w w1 : world Dev) (o : outcome Z) :
  write message w = (o, w1) -> calls w1 = (calls w ++ [CallWrite message])%list.
Proof.
  intro Hstep. rewrite <- (write_calls message w), Hstep. reflexivity.
Qed.

Lemma read_result_calls (size : pyval) (w w1 : world Dev) (o : outcome string) :
  read size w = (o, w1) -> calls w1 = (calls w ++ [CallRead size])%list.
Proof.
  intro Hstep. rewrite <- (read_calls size w), Hstep. reflexivity.
Qed.

Lemma pause_result_calls (delay : pyval) (w w1 : world Dev) (o : outcome unit) :
  pause time_sleep delay w = (o, w1) ->
  calls w1 = calls w \/ calls w1 = (calls w ++ [CallSleep delay])%list.
Proof.
  unfold pause, bind, lift.
  destruct (py_gt_zero delay) as [[|] | e]; intro Hstep.
  - right. rewrite <- (sleep_calls time_sleep delay w), Hstep. reflexivity.
  - left. inversion Hstep. reflexivity.
  - left. inversion Hstep. reflexivity.
Qed.

(** X8. A delay that is a number but not greater than zero (a negative
    integer or float, a NaN, [False]) is no error and no delay: [query] is
    then [write] followed at once by [read], whatever [time.sleep] would
    do. *)
Theorem query_delay_not_positive (message : string) (delay size : pyval)
  (w : world Dev) :
  (exists n : Z, delay = PyInt n /\ n <= 0) \/
  (exists f : float, delay = PyFloat f /\ SFltb float_zero f = false) \/
  delay = PyBool false ->
  query time_sleep message delay size w = write_then_read message size w.
Proof.
  intro Hdelay. apply query_not_positive.
  destruct Hdelay as [[n [-> Hn]] | [[f [-> Hf]] | ->]]; simpl.
  - destruct (Z.ltb_spec 0 n); [lia | reflexivity].
  - rewrite Hf. reflexivity.
  - reflexivity.
Qed.

(** X9. A delay that is no number ([None], a text) is found out only
    after the message has gone: once [write] has returned, [query] raises
    [TypeError] in the state [write] left, and neither [time.sleep] nor
    [read] is called. *)
Theorem query_delay_not_a_number (message : string) (delay size : pyval)
  (w w1 : world Dev) (n : Z) :
  delay = PyNone \/ (exists text : string, delay = PyStr text) ->
  write message w = (Ok n, w1) ->
  query time_sleep message delay size w = (Raise TypeError, w1) /\
  calls w1 = (calls w ++ [CallWrite message])%list.
Proof.
  intros Hdelay Hwrite. split.
  - rewrite (query_write_returns time_sleep message delay size w w1 n Hwrite).
    unfold pause, bind, lift.
    destruct Hdelay as [-> | [text ->]]; reflexivity.
  - apply (write_result_calls message w w1 (Ok n) Hwrite).
Qed.

(** X10. Whatever its arguments and whatever fails, [query] calls [write]
    once and first, then [time.sleep] at most once, then [read] at most
    once: the calls it adds to the record are the write alone, or the
    write followed by a read, by a sleep, or by a sleep and a read. *)
Theorem query_calls_in_order (message : string) (delay size : pyval)
  (w : world Dev) :
  exists rest : list call,
    calls (snd (query time_sleep message delay size w))
      = (calls w ++ CallWrite message :: rest)%list /\
    (rest = [] \/ rest = [CallRead size] \/ rest = [CallSleep delay] \/
     rest = [CallSleep delay; CallRead size]).
Proof.
  destruct (write message w) as [[n | e] w1] eqn:Hwrite.
  - pose proof (write_result_calls message w w1 (Ok n) Hwrite) as Hw1.
    rewrite (query_write_returns time_sleep message delay size w w1 n Hwrite).
    unfold bind.
    destruct (pause time_sleep delay w1) as [[[] | e] w2] eqn:Hpause.
    + pose proof (pause_result_calls delay w1 w2 (Ok tt) Hpause) as Hw2.
      destruct (read size w2) as [o w3] eqn:Hread.
      pose proof (read_result_calls size w2 w3 o Hread) as Hw3.
      destruct Hw2 as [Hw2 | Hw2]; simpl snd; rewrite Hw3, Hw2, Hw1.
      * exists [CallRead size]. split; [| right; left; reflexivity].
        rewrite <- app_assoc. reflexivity.
      * exists [CallSleep delay; CallRead size].
        split; [| right; right; right; reflexivity].
        rewrite <- !app_assoc. reflexivity.
    + pose proof (pause_result_calls delay w1 w2 (Raise e) Hpause) as Hw2.
      destruct Hw2 as [Hw2 | Hw2]; simpl snd; rewrite Hw2, Hw1.
      * exists []. split; [reflexivity | left; reflexivity].
      * exists [CallSleep delay]. split; [| right; right; left; reflexivity].
        rewrite <- app_assoc. reflexivity.
  - rewrite (query_write_raises time_sleep message delay size w w1 e Hwrite).
    exists []. split; [| left; reflexivity].
    apply (write_result_calls message w w1 (Raise e) Hwrite).
Qed.

(** X11. What [query] returns is what [read] returned: if [query] returns
    a text, then [write] returned, the wait between the calls returned,
    and [read], called on the state the wait left, returned that text and
    left the state [query] leaves. *)
Theorem query_returns_what_read_returns (message : string) (delay size : pyval)
  (w w' : world Dev) (answer : string) :
  query time_sleep message delay size w = (Ok answer, w') ->
  exists (n : Z) (w1 w2 : world Dev),
    write message w = (Ok n, w1) /\
    pause time_sleep delay w1 = (Ok tt, w2) /\
    read size w2 = (Ok answer, w').
Proof.
  intro Hquery.
  destruct (write message w) as [[n | e] w1] eqn:Hwrite.
  - rewrite (query_write_returns time_sleep message delay size w w1 n Hwrite)
      in Hquery.
    unfold bind in Hquery.
    destruct (pause time_sleep delay w1) as [[[] | e] w2] eqn:Hpause.
    + exists n, w1, w2.
      split; [reflexivity | split; [exact Hpause | exact Hquery]].
    + discriminate Hquery.
  - rewrite (query_write_raises time_sleep message delay size w w1 e Hwrite)
      in Hquery.
    discriminate Hquery.
Qed.
End QueryEdges.

(** X12. On the base class, where [write] and [read] are not overridden,
    [query] raises [NotImplementedError] for every message, delay and
    size, having called [write] only. *)
Theorem query_on_base_class (time_sleep : pyval -> M unit unit)
  (message : string) (delay size : pyval) (w : world unit) :
  query (H := base) time_sleep message delay size w
    = (Raise NotImplementedError,
       {| device := device w; calls := (calls w ++ [CallWrite message])%list |}) /\
  read (H := base) size w
    = (Raise NotImplementedError,
       {| device := device w; calls := (calls w ++ [CallRead size])%list |}).
Proof. split; reflexivity. Qed.

Lemma query_delay_not_positive_witness :
  query (H := sample_instrument) sample_sleep sample_message (PyInt (-3)) PyNone
      sample_world
    = write_then_read (H := sample_instrument) sample_message PyNone sample_world /\
  query (H := sample_instrument) sample_sleep sample_message (PyFloat S754_nan)
      PyNone sample_world
    = write_then_read (H := sample_instrument) sample_message PyNone sample_world.
Proof.
  split.
  - apply (query_delay_not_positive (H := sample_instrument)).
    left. exists (-3). split; [reflexivity | lia].
  - apply (query_delay_not_positive (H := sample_instrument)).
    right. left. exists S754_nan. split; reflexivity.
Defined.

Lemma query_delay_not_a_number_witness :
  query (H := sample_instrument) sample_sleep sample_message PyNone PyNone
      sample_world
    = (Raise TypeError, {| device := 0%Q; calls := [CallWrite sample_message] |}).
Proof.
  apply (query_delay_not_a_number (H := sample_instrument) sample_sleep
           sample_message PyNone PyNone sample_world
           {| device := 0%Q; calls := [CallWrite sample_message] |} 5
           (or_introl eq_refl) eq_refl).
Defined.

Lemma query_returns_what_read_returns_witness :
  exists (n : Z) (w1 w2 : world Q),
    write (H := sample_instrument) sample_message sample_world = (Ok n, w1) /\
    pause sample_sleep (PyInt 2) w1 = (Ok tt, w2) /\
    read (H := sample_instrument) PyNone w2
      = (Ok "MODEL-42",
         {| device := (0 + seconds (PyInt 2))%Q;
            calls := [CallWrite sample_message; CallSleep (PyInt 2);
                      CallRead PyNone] |}).
Proof.
  apply (query_returns_what_read_returns (H := sample_instrument) sample_sleep
           sample_message (PyInt 2) PyNone sample_world).
  reflexivity.
Defined.

(** ** KCubeStepperMotor *)

Section PowerFacts.
Context {Sdk : Type}.
Variable SCC_SetPowerParams : Z -> Z -> M Sdk unit.

Lemma set_power_params_rejects (rest move : Z) (s : Sdk) :
  rest < 0 \/ 100 < rest \/ move < 0 \/ 100 < move ->
  set_power_params SCC_SetPowerParams rest move s = (Raise ValueError, s).
Proof.
  intro Hout. unfold set_power_params, bind, raise, ret.
  destruct (Z.ltb_spec rest 0); [reflexivity |].
  destruct (Z.ltb_spec 100 rest); [reflexivity |]. simpl.
  destruct (Z.ltb_spec move 0); [reflexivity |].
  destruct (Z.ltb_spec 100 move); [reflexivity |]. lia.
Qed.

Lemma set_power_params_accepts (rest move : Z) (s : Sdk) :
  0 <= rest <= 100 -> 0 <= move <= 100 ->
  set_power_params SCC_SetPowerParams rest move s = SCC_SetPowerParams rest move s.
Proof.
  intros Hrest Hmove. unfold set_power_params, bind, raise, ret.
  destruct (Z.ltb_spec rest 0); [lia |].
  destruct (Z.ltb_spec 100 rest); [lia |]. simpl.
  destruct (Z.ltb_spec move 0); [lia |].
  destruct (Z.ltb_spec 100 move); [lia |]. simpl.
  destruct (SCC_SetPowerParams rest move s) as [[[] | e] s']; reflexivity.
Qed.

(** X13. [set_power_params] with a percentage below 0 or above 100, for
    the power at rest or on the move, raises [ValueError] and leaves the
    controller untouched: the function of the SDK is not called. With both
    within 0 to 100 the call is that of the SDK with these two values. *)
Theorem set_power_params_checks_range (rest move : Z) (s : Sdk) :
  (rest < 0 \/ 100 < rest \/ move < 0 \/ 100 < move ->
   set_power_params SCC_SetPowerParams rest move s = (Raise ValueError, s)) /\
  (0 <= rest <= 100 -> 0 <= move <= 100 ->
   set_power_params SCC_SetPowerParams rest move s
     = SCC_SetPowerParams rest move s).
Proof.
  split.
  - apply set_power_params_rejects.
  - apply set_power_params_accepts.
Qed.
End PowerFacts.

Lemma set_power_params_checks_range_witness :
  set_power_params recording_SetPowerParams 101 50 [(5, 20)]
    = (Raise ValueError, [(5, 20)]) /\
  set_power_params recording_SetPowerParams 0 100 [(5, 20)]
    = (Ok tt, [(5, 20); (0, 100)]).
Proof.
  split.
  - apply (set_power_params_checks_range recording_SetPowerParams 101 50). lia.
  - destruct (set_power_params_checks_range recording_SetPowerParams 0 100
                [(5, 20)]) as [_ Haccept].
    rewrite Haccept by lia. reflexivity.
Defined.

(** X14. Whatever is asked for and in whatever order, a controller only
    ever receives power parameters within 0 to 100: every pair that a
    sequence of calls of [set_power_params] hands to the SDK is in range. *)
Theorem set_power_params_gives_only_percentages (requests : list (Z * Z)) :
  Forall power_in_range (set_power_params_each requests []).
Proof.
  assert (Hinv : forall given : list (Z * Z),
             Forall power_in_range given ->
             Forall power_in_range (set_power_params_each requests given)).
  { induction requests as [| [rest move] requests IH]; intros given Hgiven; simpl.
    - exact Hgiven.
    - apply IH.
      destruct (Z.ltb_spec rest 0) as [Hr0 | Hr0];
        [rewrite set_power_params_rejects by lia; exact Hgiven |].
      destruct (Z.ltb_spec 100 rest) as [Hr1 | Hr1];
        [rewrite set_power_params_rejects by lia; exact Hgiven |].
      destruct (Z.ltb_spec move 0) as [Hm0 | Hm0];
        [rewrite set_power_params_rejects by lia; exact Hgiven |].
      destruct (Z.ltb_spec 100 move) as [Hm1 | Hm1];
        [rewrite set_power_params_rejects by lia; exact Hgiven |].
      rewrite set_power_params_accepts by lia.
      unfold recording_SetPowerParams, modify. simpl.
      apply Forall_app. split; [exact Hgiven |].
      constructor; [| constructor].
      unfold power_in_range. simpl. lia. }
  apply Hinv. constructor.
Qed.

(** *** The modes of the limit switches *)

Lemma lor_bit_already_set (value : Z) :
  Z.testbit value 7 = true -> Z.lor value 128 = value.
Proof.
  intro Hbit. apply Z.bits_inj'. intros i Hi.
  rewrite Z.lor_spec. change 128 with (2 ^ 7).
  rewrite Z.pow2_bits_eqb by lia.
  destruct (Z.eqb_spec 7 i) as [<- | Hne].
  - rewrite Hbit. reflexivity.
  - apply orb_false_r.
Qed.

(** X15. The conversion of a stored number to a mode returns a member of
    the enumeration as it is; a number that is no member is tried again
    with bit 7 set, and [ValueError] is raised when that is no member
    either, as it always is when bit 7 was set already. *)
Theorem enum_or_swapped_spec (member : Z -> bool) (value : Z) :
  (member value = true -> enum_or_swapped member value = Ok value) /\
  (member value = false -> member (Z.lor value 128) = true ->
   enum_or_swapped member value = Ok (Z.lor value 128)) /\
  (member value = false -> member (Z.lor value 128) = false ->
   enum_or_swapped member value = Raise ValueError) /\
  (member value = false -> Z.testbit value 7 = true ->
   enum_or_swapped member value = Raise ValueError) /\
  (forall mode : Z, enum_or_swapped member value = Ok mode -> member mode = true).
Proof.
  unfold enum_or_swapped, enum_call.
  split; [| split; [| split; [| split]]].
  - intros ->. reflexivity.
  - intros -> ->. reflexivity.
  - intros -> ->. reflexivity.
  - intros Hvalue Hbit. rewrite (lor_bit_already_set value Hbit), Hvalue.
    reflexivity.
  - intros mode.
    destruct (member value) eqn:Hvalue.
    + intro Hmode. inversion Hmode. subst. exact Hvalue.
    + destruct (member (Z.lor value 128)) eqn:Hswapped; intro Hmode.
      * inversion Hmode. subst. exact Hswapped.
      * discriminate Hmode.
Qed.

Lemma enum_or_swapped_spec_witness :
  enum_or_swapped sample_modes 2 = Ok 2 /\
  enum_or_swapped sample_modes 0 = Raise ValueError /\
  enum_or_swapped sample_modes 135 = Raise ValueError /\
  sample_modes 2 = true.
Proof.
  destruct (enum_or_swapped_spec sample_modes 2) as [Hmember [_ [_ [_ Hresult]]]].
  destruct (enum_or_swapped_spec sample_modes 0) as [_ [_ [Hneither _]]].
  destruct (enum_or_swapped_spec sample_modes 135) as [_ [_ [_ [Hbit _]]]].
  split; [| split; [| split]].
  - apply Hmember. reflexivity.
  - apply Hneither; reflexivity.
  - apply Hbit; reflexivity.
  - apply (Hresult 2). reflexivity.
Defined.

Section LimitSwitchFacts.
Context {Sdk : Type}.
Variable SCC_GetLimitSwitchParams : M Sdk (Z * Z * Z * Z * Z).
Variable MOT_LimitSwitchModes : Z -> bool.
Variable MOT_LimitSwitchSWModes : Z -> bool.

(** X16. When [get_limit_switch_params] returns, the SDK call returned,
    the two positions are those the SDK stored, and each of the three
    modes is a member of its enumeration: the number the SDK stored, or
    that number with bit 7 set. *)
Theorem get_limit_switch_params_returns_members
  (cw_mode ccw_mode cw_pos ccw_pos s_mode : Z) (s s' : Sdk) :
  get_limit_switch_params SCC_GetLimitSwitchParams MOT_LimitSwitchModes
      MOT_LimitSwitchSWModes s
    = (Ok (cw_mode, ccw_mode, cw_pos, ccw_pos, s_mode), s') ->
  exists cw_lim ccw_lim soft : Z,
    SCC_GetLimitSwitchParams s = (Ok (cw_lim, ccw_lim, cw_pos, ccw_pos, soft), s') /\
    (cw_mode = cw_lim \/ cw_mode = Z.lor cw_lim 128) /\
    (ccw_mode = ccw_lim \/ ccw_mode = Z.lor ccw_lim 128) /\
    (s_mode = soft \/ s_mode = Z.lor soft 128) /\
    MOT_LimitSwitchModes cw_mode = true /\
    MOT_LimitSwitchModes ccw_mode = true /\
    MOT_LimitSwitchSWModes s_mode = true.
Proof.
  assert (Hconv : forall (member : Z -> bool) (value mode : Z),
             enum_or_swapped member value = Ok mode ->
             (mode = value \/ mode = Z.lor value 128) /\ member mode = true).
  { intros member value mode. unfold enum_or_swapped, enum_call.
    destruct (member value) eqn:Hvalue.
    - intro Hmode. inversion Hmode. subst. split; [left; reflexivity | exact Hvalue].
    - destruct (member (Z.lor value 128)) eqn:Hswapped; intro Hmode.
      + inversion Hmode. subst. split; [right; reflexivity | exact Hswapped].
      + discriminate Hmode. }
  unfold get_limit_switch_params, bind, lift, ret.
  destruct (SCC_GetLimitSwitchParams s)
    as [[[[[[cw_lim ccw_lim] p1] p2] soft] | e] s1]; [| discriminate].
  destruct (enum_or_swapped MOT_LimitSwitchModes cw_lim) as [m1 | e] eqn:H1;
    [| discriminate].
  destruct (enum_or_swapped MOT_LimitSwitchModes ccw_lim) as [m2 | e] eqn:H2;
    [| discriminate].
  destruct (enum_or_swapped MOT_LimitSwitchSWModes soft) as [m3 | e] eqn:H3;
    [| discriminate].
  intro Hresult. inversion Hresult. subst.
  destruct (Hconv _ _ _ H1) as [Hc1 Hm1].
  destruct (Hconv _ _ _ H2) as [Hc2 Hm2].
  destruct (Hconv _ _ _ H3) as [Hc3 Hm3].
  exists cw_lim, ccw_lim, soft. repeat split; assumption.
Qed.
End LimitSwitchFacts.

Lemma get_limit_switch_params_returns_members_witness :
  exists cw_lim ccw_lim soft : Z,
    ret (3, 130, 1000, 2000, 1) tt = (Ok (cw_lim, ccw_lim, 1000, 2000, soft), tt) /\
    (3 = cw_lim \/ 3 = Z.lor cw_lim 128) /\
    (130 = ccw_lim \/ 130 = Z.lor ccw_lim 128) /\
    (1 = soft \/ 1 = Z.lor soft 128) /\
    sample_modes 3 = true /\
    sample_modes 130 = true /\
    sample_modes 1 = true.
Proof.
  apply (get_limit_switch_params_returns_members (ret (3, 130, 1000, 2000, 1))
           sample_modes sample_modes 3 130 1000 2000 1 tt tt).
  reflexivity.
Defined.

(** *** The name of the calibration file *)

Lemma rstrip_nul_padding (k : nat) : rstrip_nul (padding k) = EmptyString.
Proof.
  induction k as [| k IH]; simpl; [reflexivity |].
  rewrite IH. reflexivity.
Qed.

Lemma rstrip_nul_app (text tail : string) :
  rstrip_nul tail = EmptyString ->
  rstrip_nul (text ++ tail) = rstrip_nul text.
Proof.
  intro Htail. induction text as [| c text IH]; simpl.
  - exact Htail.
  - rewrite IH. reflexivity.
Qed.

Lemma rstrip_nul_unpadded (text : string) :
  last_char text <> Some NUL -> rstrip_nul text = text.
Proof.
  induction text as [| c text IH]; intro Hlast; [reflexivity |].
  destruct text as [| c' text'].
  - simpl. destruct (Ascii.eqb_spec c NUL) as [-> | Hc]; [| reflexivity].
    contradiction Hlast. reflexivity.
  - change (rstrip_nul (String c (String c' text')))
      with (match rstrip_nul (String c' text') with
            | EmptyString =>
                if Ascii.eqb c NUL then EmptyString else String c EmptyString
            | kept => String c kept
            end).
    rewrite IH by exact Hlast. reflexivity.
Qed.

Lemma rstrip_nul_last (text : string) : last_char (rstrip_nul text) <> Some NUL.
Proof.
  induction text as [| c text IH]; simpl; [discriminate |].
  destruct (rstrip_nul text) as [| c' kept].
  - destruct (Ascii.eqb_spec c NUL) as [-> | Hc]; simpl; [discriminate |].
    intro Hlast. inversion Hlast. contradiction.
  - exact IH.
Qed.

Section CalibrationFileFacts.
Variable bytes_decode : list Byte.byte -> string -> outcome string.

(** X17. The name that [get_calibration_file] returns is the decoded
    buffer without its padding: it never ends with a NUL character; for a
    buffer that decodes to a name, not ending with NUL, followed by any
    number of NUL characters it is that name, NUL characters inside the
    name being kept; and a buffer that does not decode raises the
    exception of the decoder. *)
Theorem calibration_file_name_spec (raw : list Byte.byte) :
  (forall name : string,
     calibration_file_name bytes_decode raw = Ok name ->
     last_char name <> Some NUL) /\
  (forall (name : string) (k : nat),
     bytes_decode raw "utf-8" = Ok (name ++ padding k) ->
     last_char name <> Some NUL ->
     calibration_file_name bytes_decode raw = Ok name) /\
  (forall e : exn,
     bytes_decode raw "utf-8" = Raise e ->
     calibration_file_name bytes_decode raw = Raise e).
Proof.
  unfold calibration_file_name. split; [| split].
  - intros name. destruct (bytes_decode raw "utf-8") as [text | e]; intro Hname.
    + inversion Hname. apply rstrip_nul_last.
    + discriminate Hname.
  - intros name k -> Hlast.
    rewrite (rstrip_nul_app name (padding k) (rstrip_nul_padding k)).
    rewrite (rstrip_nul_unpadded name Hlast). reflexivity.
  - intros e ->. reflexivity.
Qed.
End CalibrationFileFacts.

Lemma calibration_file_name_spec_witness :
  calibration_file_name sample_decode
    (list_byte_of_string ("a" ++ String NUL "b.dat" ++ padding 5))
    = Ok ("a" ++ String NUL "b.dat") /\
  calibration_file_name sample_decode (list_byte_of_string (padding 8))
    = Ok EmptyString.
Proof.
  split.
  - destruct (calibration_file_name_spec sample_decode
                (list_byte_of_string ("a" ++ String NUL "b.dat" ++ padding 5)))
      as [_ [Hname _]].
    apply (Hname ("a" ++ String NUL "b.dat") 5%nat); [reflexivity | discriminate].
  - destruct (calibration_file_name_spec sample_decode
                (list_byte_of_string (padding 8)))
      as [_ [Hname _]].
    apply (Hname EmptyString 8%nat); [reflexivity | discriminate].
Defined.
